(** * WebserverHTML: the sensor page and its refresh script

    [src/WebserverHTML.h] holds one constant, [PAGE_MAIN]: an HTML page with
    a style sheet and a script.  The script defines [fetchData], which
    fetches ["/"], parses the answer with [DOMParser], copies the text of
    the [temperature] and [distance] elements into the live page and shows
    or hides the [alertBox] element; [setInterval(fetchData, 1000)] runs it
    periodically.

    The development embeds the script as a function on an explicit page
    state (the live document and the console), in a small state-and-exception
    monad, and the markup of [PAGE_MAIN] as a DOM tree. *)

From Stdlib Require Import String Ascii List NArith Lia Bool.
From stdpp Require Import base option list gmap strings fin_maps.

Open Scope string_scope.
Open Scope list_scope.

Set Warnings "-register-all".

(** ** JavaScript strings *)

Module JsString.

(** A JavaScript string is a sequence of UTF-16 code units. *)
Definition DOMString : Type := list N.

(** An ASCII literal of the script, as code units. *)
Definition lit (s : string) : DOMString :=
  map N_of_ascii (list_ascii_of_string s).

(** ECMAScript [WhiteSpace] and [LineTerminator] code points: what
    [String.prototype.trim] strips.  All of them lie in the basic
    plane, so each is one code unit. *)
Definition isWhiteSpace (c : N) : bool :=
  ((c =? 9) || (c =? 10) || (c =? 11) || (c =? 12) || (c =? 13)
   || (c =? 32) || (c =? 160) || (c =? 5760)
   || ((8192 <=? c) && (c <=? 8202))
   || (c =? 8232) || (c =? 8233) || (c =? 8239) || (c =? 8287)
   || (c =? 12288) || (c =? 65279))%N.

Fixpoint trimStart (s : DOMString) : DOMString :=
  match s with
  | c :: s' => if isWhiteSpace c then trimStart s' else s
  | [] => []
  end.

Definition trimEnd (s : DOMString) : DOMString :=
  rev (trimStart (rev s)).

(** [s.trim()] *)
Definition trim (s : DOMString) : DOMString :=
  trimEnd (trimStart s).

(** A string of white space only (the empty string included). *)
Definition blank (s : DOMString) : Prop :=
  Forall (fun c => isWhiteSpace c = true) s.

End JsString.
Import JsString.

(** ** The DOM *)

Module Dom.

(** A node of a document tree.  An element carries its tag, its plain
    attributes ([id], [class], ...) and the declarations of its inline
    [style] attribute, which script reads and writes through
    [element.style]. *)
Inductive Node : Type :=
| Text (data : DOMString)
| Comment (data : string)
| Elem (tag : string) (attrs : list (string * string))
       (style : list (string * string)) (children : list Node).

(** [getAttribute] *)
Fixpoint getAttribute (name : string) (attrs : list (string * string))
  : option string :=
  match attrs with
  | [] => None
  | (k, v) :: rest => if String.eqb k name then Some v else getAttribute name rest
  end.

(** [node.textContent]: the text of all descendant text nodes, in tree
    order. *)
Fixpoint textContent (n : Node) : DOMString :=
  match n with
  | Text s => s
  | Comment _ => []
  | Elem _ _ _ cs => concat (map textContent cs)
  end.

(** The node and its descendants, in tree order. *)
Fixpoint descendants (n : Node) : list Node :=
  match n with
  | Elem _ _ _ cs => n :: concat (map descendants cs)
  | _ => [n]
  end.

(** What script sees of one element: its tag, its class, the [display]
    declaration of its inline style (if any) and its text.

    [innerText] of an element that is not rendered (every element of a
    document built by [DOMParser], and every [display: none] element) is
    its [textContent].  For an element the script writes, [innerText] is
    the text put into the element: the string last assigned, as the DOM
    holds it, before any white-space processing of the renderer. *)
Record Element : Type := mkElement {
  tagName : string;
  className : option string;
  style_display : option string;
  innerText : DOMString
}.

Definition elementOf (n : Node) : option (string * Element) :=
  match n with
  | Elem tag attrs style _ =>
      match getAttribute "id" attrs with
      | Some id =>
          Some (id, {| tagName := tag;
                       className := getAttribute "class" attrs;
                       style_display := getAttribute "display" style;
                       innerText := textContent n |})
      | None => None
      end
  | _ => None
  end.

(** A document as script addresses it: the elements that carry an [id].
    Where an [id] occurs twice, the first element in tree order is the
    one [getElementById] returns. *)
Definition index (root : Node) : gmap string Element :=
  list_to_map (omap elementOf (descendants root)).

(** [document.getElementById(id)]; [None] is JavaScript's [null]. *)
Definition getElementById (d : gmap string Element) (id : string)
  : option Element := d !! id.

End Dom.
Import Dom.

(** ** Script execution: state and exceptions *)

Module Js.

(** The values thrown or used to reject a promise. *)
Inductive JsError : Type :=
| TypeError (message : string)
| DOMException (name : string).

(** A settled promise handed to the script by the browser. *)
Inductive Promise (A : Type) : Type :=
| Fulfilled (value : A)
| Rejected (reason : JsError).
Arguments Fulfilled {A} value.
Arguments Rejected {A} reason.

(** The state script can change: the live document and the console. *)
Record Page : Type := mkPage {
  document : gmap string Element;
  console : list (DOMString * JsError)
}.

(** How a piece of script ends. *)
Inductive Completion (A : Type) : Type :=
| Normal (value : A)
| Throw (error : JsError).
Arguments Normal {A} value.
Arguments Throw {A} error.

(** A piece of script: it runs on a page, ends normally or throws, and
    leaves a page behind; what it wrote before throwing stays written. *)
Definition JS (A : Type) : Type := Page -> Completion A * Page.

Definition ret {A} (a : A) : JS A := fun σ => (Normal a, σ).

Definition throw {A} (e : JsError) : JS A := fun σ => (Throw e, σ).

Definition bind {A B} (m : JS A) (k : A -> JS B) : JS B :=
  fun σ =>
    match m σ with
    | (Normal a, σ') => k a σ'
    | (Throw e, σ') => (Throw e, σ')
    end.

(** [promise.then(k)]: [k] runs on the value of a fulfilled promise; a
    rejection, or an exception thrown by an earlier callback, passes on. *)
Definition then_ {A B} (m : JS A) (k : A -> JS B) : JS B := bind m k.

(** [promise.catch(h)]: [h] runs on the reason of a rejection. *)
Definition catch_ {A} (m : JS A) (h : JsError -> JS A) : JS A :=
  fun σ =>
    match m σ with
    | (Normal a, σ') => (Normal a, σ')
    | (Throw e, σ') => h e σ'
    end.

(** Waiting for a promise of the browser. *)
Definition settle {A} (p : Promise A) : JS A :=
  match p with
  | Fulfilled a => ret a
  | Rejected e => throw e
  end.

End Js.
Import Js.

#[global] Instance JS_ret : MRet JS := @ret.
#[global] Instance JS_bind : MBind JS := fun A B k m => bind m k.

(** ** The refresh script *)

Module Script.

(** What the server answers: a status code and a body, read through
    [response.text()]. *)
Record Response (Html : Type) : Type := mkResponse {
  status : N;
  text : Promise Html
}.
Arguments mkResponse {Html} status text.
Arguments status {Html} r.
Arguments text {Html} r.

(** The promise [fetch(url)] returns.  It is rejected when the request
    cannot complete; an answer of the server fulfils it whatever its
    status code. *)
Definition Network (Html : Type) : Type := string -> Promise (Response Html).

Section Browser.

(** The text of a response body, and [DOMParser.parseFromString(html,
    "text/html")], which builds a document from any text and never
    throws. *)
Variable Html : Type.
Variable parseFromString : Html -> gmap string Element.

(** [fetch(url)] *)
Definition fetch (net : Network Html) (url : string) : JS (Response Html) :=
  settle (net url).

(** [response.text()] *)
Definition response_text (response : Response Html) : JS Html :=
  settle (text response).

(** [document.getElementById(id)] on the live document: a reference to
    the element, or [None] for [null]. *)
Definition document_getElementById (id : string) : JS (option string) :=
  fun σ =>
    (Normal (match getElementById (document σ) id with
             | Some _ => Some id
             | None => None
             end), σ).

(** [element.innerText], read: a [TypeError] when [element] is [null]. *)
Definition get_innerText (element : option Element) : JS DOMString :=
  match element with
  | Some e => ret (innerText e)
  | None => throw (TypeError "Cannot read properties of null (reading 'innerText')")
  end.

(** An element after [innerText], or [style.display], is assigned. *)
Definition setText (value : DOMString) (e : Element) : Element :=
  {| tagName := tagName e; className := className e;
     style_display := style_display e; innerText := value |}.

Definition setDisplay (value : string) (e : Element) : Element :=
  {| tagName := tagName e; className := className e;
     style_display := Some value; innerText := innerText e |}.

(** The page after the element [id] of the live document is assigned. *)
Definition withText (id : string) (value : DOMString) (σ : Page) : Page :=
  {| document := alter (setText value) id (document σ);
     console := console σ |}.

Definition withDisplay (id : string) (value : string) (σ : Page) : Page :=
  {| document := alter (setDisplay value) id (document σ);
     console := console σ |}.

(** [element.innerText = value] on an element of the live document. *)
Definition set_innerText (element : option string) (value : DOMString) : JS unit :=
  match element with
  | Some id => fun σ => (Normal tt, withText id value σ)
  | None => throw (TypeError "Cannot set properties of null (setting 'innerText')")
  end.

(** [element.style.display = value] on an element of the live document. *)
Definition set_style_display (element : option string) (value : string) : JS unit :=
  match element with
  | Some id => fun σ => (Normal tt, withDisplay id value σ)
  | None => throw (TypeError "Cannot read properties of null (reading 'style')")
  end.

(** [console.error(message, error)] *)
Definition console_error (message : DOMString) (error : JsError) : JS unit :=
  fun σ =>
    (Normal tt,
     {| document := document σ; console := console σ ++ [(message, error)] |}).

(** The callback of the second [then] (lines 57-73): parse the body,
    copy the two readings, show or hide the alert. *)
Definition update (html : Html) : JS unit :=
  let doc := parseFromString html in
  (* document.getElementById("temperature").innerText
       = doc.getElementById("temperature").innerText;
     the target is evaluated first, then the value, then the assignment *)
  target ← document_getElementById "temperature";
  value ← get_innerText (getElementById doc "temperature");
  set_innerText target value;;
  (* document.getElementById("distance").innerText
       = doc.getElementById("distance").innerText; *)
  target ← document_getElementById "distance";
  value ← get_innerText (getElementById doc "distance");
  set_innerText target value;;
  (* let alertBox = document.getElementById("alertBox");
     let newAlertMessage = doc.getElementById("alertMessage").innerText; *)
  alertBox ← document_getElementById "alertBox";
  newAlertMessage ← get_innerText (getElementById doc "alertMessage");
  if decide (trim newAlertMessage ≠ lit "") then
    set_innerText alertBox newAlertMessage;;
    set_style_display alertBox "block"
  else
    set_style_display alertBox "none".

(** The promise chain before its [catch] (lines 55-73). *)
Definition chain (net : Network Html) : JS unit :=
  then_ (then_ (fetch net "/") (fun response => response_text response))
        (fun html => update html).

(** [fetchData] (lines 54-75): one refresh cycle. *)
Definition fetchData (net : Network Html) : JS unit :=
  catch_ (chain net)
         (fun error => console_error (lit "Error fetching data:") error).

(** The page after the cycles that [setInterval(fetchData, 1000)]
    (line 78) starts during a page view, one network answer per cycle, in
    the order in which the cycles complete. *)
Fixpoint cycles (nets : list (Network Html)) (σ : Page) : Page :=
  match nets with
  | [] => σ
  | net :: rest => cycles rest (snd (fetchData net σ))
  end.

End Browser.

Arguments update {Html} parseFromString html _.
Arguments chain {Html} parseFromString net _.
Arguments fetchData {Html} parseFromString net _.
Arguments cycles {Html} parseFromString nets σ.

End Script.
Import Script.

(** ** Style and rendering *)

Module Css.

Inductive Selector : Type :=
| TagSel (tag : string)
| ClassSel (class : string).

Definition Rule : Type := Selector * list (string * string).

(** The user agent's default [display] of the tags the page uses. *)
Definition defaultDisplay (tag : string) : string :=
  if existsb (String.eqb tag) ["head"; "meta"; "title"; "style"; "script"]
  then "none"
  else if existsb (String.eqb tag) ["span"] then "inline" else "block".

Definition displayOf (r : Rule) : option string := getAttribute "display" (snd r).

(** A rule applies to an element by its tag or by its class; every class
    attribute of the page names one class. *)
Definition selects (tag : string) (class : option string) (r : Rule) : bool :=
  match fst r with
  | TagSel t => String.eqb t tag
  | ClassSel c => match class with Some c' => String.eqb c c' | None => false end
  end.

Definition isClassRule (r : Rule) : bool :=
  match fst r with ClassSel _ => true | TagSel _ => false end.

(** The [display] the sheet declares for an element: a class rule wins
    over a tag rule, and among equals the last one wins. *)
Definition declaredDisplay (sheet : list Rule) (tag : string)
    (class : option string) : option string :=
  let ds := omap displayOf (filter (fun r => selects tag class r = true) sheet) in
  let cs := omap displayOf
              (filter (fun r => selects tag class r && isClassRule r = true) sheet) in
  match last cs with
  | Some d => Some d
  | None => last ds
  end.

(** The computed [display]: the inline style first, then the sheet, then
    the default of the tag. *)
Definition computedDisplay (sheet : list Rule) (tag : string)
    (class inline : option string) : string :=
  match inline with
  | Some d => d
  | None =>
      match declaredDisplay sheet tag class with
      | Some d => d
      | None => defaultDisplay tag
      end
  end.

(** An element generates a box unless its [display] is [none]. *)
Definition shown (sheet : list Rule) (e : Element) : bool :=
  negb (String.eqb
          (computedDisplay sheet (tagName e) (className e) (style_display e))
          "none").

(** The text a reader of the page sees: text nodes outside every
    [display: none] element. *)
Fixpoint renderedText (sheet : list Rule) (n : Node) : DOMString :=
  match n with
  | Text s => s
  | Comment _ => []
  | Elem tag attrs style cs =>
      if String.eqb
           (computedDisplay sheet tag (getAttribute "class" attrs)
              (getAttribute "display" style))
           "none"
      then []
      else concat (map (renderedText sheet) cs)
  end.

End Css.
Import Css.

(** ** The page *)

Module Markup.

(** The style sheet of [PAGE_MAIN] (lines 17-49). *)
Definition stylesheet : list Rule :=
  [ (TagSel "body",
      [("font-family", "Arial, sans-serif"); ("text-align", "center");
       ("background-color", "#f4f4f4"); ("margin", "0"); ("padding", "50px")]);
    (TagSel "h1", [("color", "#333")]);
    (ClassSel "data-container",
      [("font-size", "1.5em"); ("font-weight", "bold"); ("color", "#555");
       ("margin", "20px 0")]);
    (ClassSel "label", [("font-weight", "bold"); ("color", "#222")]);
    (ClassSel "alert-box",
      [("display", "none"); ("color", "white"); ("background-color", "red");
       ("padding", "15px"); ("font-size", "1.2em"); ("font-weight", "bold");
       ("margin", "20px"); ("border-radius", "5px")]) ].

(** The markup of [PAGE_MAIN] (lines 11-96) as the tree a browser builds
    from it.  The three placeholders are text nodes.  The text of the
    [style] and [script] elements is given by [stylesheet] and
    [Script.fetchData]; white space between block elements is left out. *)
Definition PAGE_MAIN : Node :=
  Elem "html" [("lang", "en")] []
    [ Elem "head" [] []
        [ Elem "meta" [("charset", "UTF-8")] [] [];
          Elem "meta" [("name", "viewport");
                       ("content", "width=device-width, initial-scale=1.0")] [] [];
          Elem "title" [] [] [Text (lit "ESP32 Sensor Data")];
          Elem "style" [] [] [];
          Elem "script" [] [] [] ];
      Elem "body" [] []
        [ Elem "h1" [] [] [Text (lit "ESP32 Sensor Data")];
          Comment " Alert message box ";
          Elem "div" [("class", "alert-box"); ("id", "alertBox")] [] [];
          Comment " Display sensor data ";
          Elem "div" [("class", "data-container")] []
            [ Elem "p" [] []
                [ Elem "span" [("class", "label")] [] [Text (lit "Temperature:")];
                  Text (lit " ");
                  Elem "span" [("id", "temperature")] []
                    [Text (lit "{{temperature}}")];
                  Text (lit " " ++ [176%N] ++ lit "F") ];
              Elem "p" [] []
                [ Elem "span" [("class", "label")] [] [Text (lit "Distance:")];
                  Text (lit " ");
                  Elem "span" [("id", "distance")] []
                    [Text (lit "{{distance}}")];
                  Text (lit " cm") ] ];
          Comment " Hidden alert message for script usage ";
          Elem "div" [("id", "alertMessage")] [("display", "none")]
            [Text (lit "{{alertMessage}}")] ] ].

(** The readings of one instant, as text. *)
Record SensorSnapshot : Type := mkSnapshot {
  temperature : DOMString;
  distance : DOMString;
  alertMessage : DOMString
}.

Definition placeholders (s : SensorSnapshot) : list (DOMString * DOMString) :=
  [ (lit "{{temperature}}", temperature s);
    (lit "{{distance}}", distance s);
    (lit "{{alertMessage}}", alertMessage s) ].

Fixpoint assoc (key : DOMString) (l : list (DOMString * DOMString))
  : option DOMString :=
  match l with
  | [] => None
  | (k, v) :: rest => if decide (k = key) then Some v else assoc key rest
  end.

(** Modelled from the spec: the server-side substitution of the
    placeholders, which is not part of [src/WebserverHTML.h].  The spec
    (section 6) has each token replaced before the document is sent, by a
    field "holding plain text content": a text node that is a token
    becomes the text of its field. *)
Fixpoint substitute (env : list (DOMString * DOMString)) (n : Node) : Node :=
  match n with
  | Text s => Text (default s (assoc s env))
  | Comment c => Comment c
  | Elem tag attrs style cs => Elem tag attrs style (map (substitute env) cs)
  end.

(** The document the server sends for a snapshot. *)
Definition render (s : SensorSnapshot) : Node :=
  substitute (placeholders s) PAGE_MAIN.

(** The page state once a document is loaded, before any script runs. *)
Definition load (root : Node) : Page :=
  {| document := index root; console := [] |}.

(** The three display regions. *)
Definition temperatureRegion (σ : Page) : option Element :=
  getElementById (document σ) "temperature".
Definition distanceRegion (σ : Page) : option Element :=
  getElementById (document σ) "distance".
Definition alertRegion (σ : Page) : option Element :=
  getElementById (document σ) "alertBox".

Definition regions (σ : Page)
  : option Element * option Element * option Element :=
  (temperatureRegion σ, distanceRegion σ, alertRegion σ).

(** The alert banner is on screen. *)
Definition alertVisible (σ : Page) : bool :=
  match alertRegion σ with
  | Some e => shown stylesheet e
  | None => false
  end.

End Markup.
Import Markup.


(** ** Outcomes of a refresh cycle *)

Module Cycle.

Section Outcome.

Context {Html : Type} (parseFromString : Html -> gmap string Element).

(** The document the cycle works on, when the request and the reading of
    its body both complete. *)
Definition fetched (net : Network Html) : option (gmap string Element) :=
  match net "/" with
  | Fulfilled response =>
      match text response with
      | Fulfilled html => Some (parseFromString html)
      | Rejected _ => None
      end
  | Rejected _ => None
  end.

(** A cycle fails when the promise chain is rejected, so that its [catch]
    runs; it succeeds when the chain is fulfilled. *)
Definition cycleFails (net : Network Html) (σ : Page) : Prop :=
  exists error, fst (chain parseFromString net σ) = Throw error.

Definition cycleSucceeds (net : Network Html) (σ : Page) : Prop :=
  fst (chain parseFromString net σ) = Normal tt.

(** The six ways through the promise chain, by the point where it
    stops. *)
Inductive Path (net : Network Html) (σ : Page)
  : Completion unit * Page -> Prop :=
| no_document error :
    fetched net = None ->
    Path net σ (Throw error, σ)
| no_temperature doc error :
    fetched net = Some doc ->
    getElementById doc "temperature" = None \/ temperatureRegion σ = None ->
    Path net σ (Throw error, σ)
| no_distance doc t error :
    fetched net = Some doc ->
    getElementById doc "temperature" = Some t ->
    is_Some (temperatureRegion σ) ->
    getElementById doc "distance" = None \/ distanceRegion σ = None ->
    Path net σ (Throw error, withText "temperature" (innerText t) σ)
| no_alert doc t d error :
    fetched net = Some doc ->
    getElementById doc "temperature" = Some t ->
    is_Some (temperatureRegion σ) ->
    getElementById doc "distance" = Some d ->
    is_Some (distanceRegion σ) ->
    getElementById doc "alertMessage" = None \/ alertRegion σ = None ->
    Path net σ
      (Throw error,
       withText "distance" (innerText d)
         (withText "temperature" (innerText t) σ))
| alert_shown doc t d a :
    fetched net = Some doc ->
    getElementById doc "temperature" = Some t ->
    is_Some (temperatureRegion σ) ->
    getElementById doc "distance" = Some d ->
    is_Some (distanceRegion σ) ->
    getElementById doc "alertMessage" = Some a ->
    is_Some (alertRegion σ) ->
    trim (innerText a) <> lit "" ->
    Path net σ
      (Normal tt,
       withDisplay "alertBox" "block"
         (withText "alertBox" (innerText a)
            (withText "distance" (innerText d)
               (withText "temperature" (innerText t) σ))))
| alert_hidden doc t d a :
    fetched net = Some doc ->
    getElementById doc "temperature" = Some t ->
    is_Some (temperatureRegion σ) ->
    getElementById doc "distance" = Some d ->
    is_Some (distanceRegion σ) ->
    getElementById doc "alertMessage" = Some a ->
    is_Some (alertRegion σ) ->
    trim (innerText a) = lit "" ->
    Path net σ
      (Normal tt,
       withDisplay "alertBox" "none"
         (withText "distance" (innerText d)
            (withText "temperature" (innerText t) σ))).

End Outcome.

(** A document that carries the two readings. *)
Definition hasReadings (doc : gmap string Element) : Prop :=
  is_Some (getElementById doc "temperature")
  /\ is_Some (getElementById doc "distance").

(** A page that has the three elements the script writes. *)
Definition hasRegions (σ : Page) : Prop :=
  is_Some (temperatureRegion σ)
  /\ is_Some (distanceRegion σ)
  /\ is_Some (alertRegion σ).

End Cycle.
Import Cycle.

(** ** Concrete answers and pages *)

Module Examples.

(** The server answers with [status] and the document [body]; a body is
    given by its tree, and the parser is [index]. *)
Definition respond (status : N) (body : Node) : Network Node :=
  fun _ => Fulfilled (mkResponse status (Fulfilled body)).

(** The request cannot complete. *)
Definition offline : Network Node :=
  fun _ => Rejected (TypeError "Failed to fetch").

(** The page on screen: 70 degrees, 20 cm, no alert. *)
Definition page0 : Page :=
  load (render (mkSnapshot (lit "70") (lit "20") (lit ""))).

(** The same page while an alert is shown. *)
Definition alerting : Page :=
  withDisplay "alertBox" "block"
    (withText "alertBox" (lit "Object too close!") page0).

(** The same page with an older line on its console. *)
Definition page0_logged : Page :=
  snd (console_error (lit "Error fetching data:")
         (TypeError "Failed to fetch") page0).

Definition close_call : SensorSnapshot :=
  mkSnapshot (lit "72") (lit "15") (lit "Object too close!").

(** An alert text with a no-break space (U+00A0) on either side. *)
Definition padded : SensorSnapshot :=
  mkSnapshot (lit "72") (lit "15")
    ([160%N] ++ lit "Object too close!" ++ [160%N]).

Definition calm : SensorSnapshot :=
  mkSnapshot (lit "72") (lit "15") (lit "  ").

(** A document with a [temperature] element and nothing else. *)
Definition only_temperature : Node :=
  Elem "html" [] []
    [ Elem "head" [] [] [];
      Elem "body" [] []
        [ Elem "span" [("id", "temperature")] [] [Text (lit "80")] ] ].


(** A document whose only element with an id is an [alertMessage] of
    two spaces. *)
Definition only_blank_alert : Node :=
  Elem "html" [] []
    [ Elem "head" [] [] [];
      Elem "body" [] []
        [ Elem "div" [("id", "alertMessage")] [("display", "none")]
            [Text (lit "  ")] ] ].

(** A document whose only element with an id is an [alertMessage] that is
    not blank. *)
Definition only_alert : Node :=
  Elem "html" [] []
    [ Elem "head" [] [] [];
      Elem "body" [] []
        [ Elem "div" [("id", "alertMessage")] [("display", "none")]
            [Text (lit "Object too close!")] ] ].

(** A document in which the id [temperature] occurs twice. *)
Definition twice : Node :=
  Elem "body" [] []
    [ Elem "div" [] []
        [ Elem "span" [("id", "temperature")] [] [Text (lit "1")] ];
      Elem "span" [("id", "temperature")] [] [Text (lit "2")] ].

End Examples.
Import Examples.

(** ** What the script reads and writes *)

Module Flow.

(** The ids of the elements of a tree, in tree order. *)
Definition ids (root : Node) : list string :=
  fst <$> omap elementOf (descendants root).

(** Which element of the fetched document feeds which element of the
    live page (lines 61, 62 and 65-68): the id read, then the id
    written. *)
Definition feeds : list (string * string) :=
  [ ("temperature", "temperature");
    ("distance", "distance");
    ("alertMessage", "alertBox") ].

End Flow.
Import Flow.

(** * Properties *)

(** ** [trim] *)

Example trim_padded : trim (lit "  Object too close! ") = lit "Object too close!".
Proof. reflexivity. Qed.

Example trim_no_break_space : trim [160%N; 9%N; 10%N; 12288%N] = lit "".
Proof. reflexivity. Qed.

Lemma trimStart_nil_blank s : trimStart s = [] <-> blank s.
Proof.
  unfold blank. induction s as [|c s IH]; simpl.
  - split; [constructor | reflexivity].
  - destruct (isWhiteSpace c) eqn:Hc.
    + rewrite IH. split; [now constructor | now inversion 1].
    + split; [discriminate | inversion 1; congruence].
Qed.

Lemma trimStart_blank_suffix s : blank (trimStart s) -> blank s.
Proof.
  unfold blank. induction s as [|c s IH]; simpl; [trivial|].
  destruct (isWhiteSpace c) eqn:Hc; [|trivial].
  intros H. constructor; auto.
Qed.

Lemma blank_rev s : blank (rev s) <-> blank s.
Proof.
  unfold blank. rewrite !Forall_forall.
  split; intros H c Hc; apply H; rewrite list_elem_of_In in *.
  - now apply in_rev in Hc.
  - now apply in_rev.
Qed.

(** [s.trim()] is the empty string exactly when [s] is empty or white
    space only. *)
Lemma trim_nil_blank s : trim s = lit "" <-> blank s.
Proof.
  unfold trim, trimEnd. split.
  - intros H. apply trimStart_blank_suffix.
    apply blank_rev, trimStart_blank_suffix.
    assert (E : trimStart (rev (trimStart s)) = []).
    { apply (f_equal (@rev N)) in H. now rewrite rev_involutive in H. }
    rewrite E. constructor.
  - intros H. apply trimStart_nil_blank in H. now rewrite H.
Qed.

(** ** Documents *)

(** Of two elements with one id, [getElementById] finds the first in tree
    order. *)
Example first_id_wins :
  innerText <$> getElementById (index twice) "temperature" = Some (lit "1").
Proof. reflexivity. Qed.

Lemma lookup_withText_eq id v σ :
  getElementById (document (withText id v σ)) id
  = setText v <$> getElementById (document σ) id.
Proof.
  unfold getElementById, withText; cbn [document].
  now rewrite lookup_alter_eq.
Qed.

Lemma lookup_withText_ne id id' v σ :
  id <> id' ->
  getElementById (document (withText id v σ)) id'
  = getElementById (document σ) id'.
Proof.
  intros H. unfold getElementById, withText; cbn [document].
  now rewrite lookup_alter_ne.
Qed.

Lemma lookup_withDisplay_eq id v σ :
  getElementById (document (withDisplay id v σ)) id
  = setDisplay v <$> getElementById (document σ) id.
Proof.
  unfold getElementById, withDisplay; cbn [document].
  now rewrite lookup_alter_eq.
Qed.

Lemma lookup_withDisplay_ne id id' v σ :
  id <> id' ->
  getElementById (document (withDisplay id v σ)) id'
  = getElementById (document σ) id'.
Proof.
  intros H. unfold getElementById, withDisplay; cbn [document].
  now rewrite lookup_alter_ne.
Qed.

Lemma console_withText id v σ : console (withText id v σ) = console σ.
Proof. reflexivity. Qed.

Lemma console_withDisplay id v σ : console (withDisplay id v σ) = console σ.
Proof. reflexivity. Qed.

Lemma ids_distinct :
  "temperature" <> "distance" /\ "temperature" <> "alertBox"
  /\ "distance" <> "alertBox".
Proof. repeat split; discriminate. Qed.

#[local] Arguments lit : simpl never.
#[local] Arguments getElementById : simpl never.
#[local] Arguments withText : simpl never.
#[local] Arguments withDisplay : simpl never.

(** ** The refresh cycle *)

Section Properties.

Context {Html : Type} (parseFromString : Html -> gmap string Element).

Ltac js_unfold :=
  unfold chain, then_, update, fetch, response_text, settle,
    document_getElementById, get_innerText, set_innerText,
    set_style_display, mbind, JS_bind, bind, ret, throw.

(** One step of [update]: look an element up on one side. *)
Ltac js_lookup d id :=
  let H := fresh "H" in
  rewrite ?lookup_withText_ne by assumption;
  destruct (getElementById d id) eqn:H; cbn.

(** The chain takes one of the six paths. *)
Lemma chain_path net σ :
  Path parseFromString net σ (chain parseFromString net σ).
Proof.
  destruct ids_distinct as (Htd & Hta & Hda).
  js_unfold.
  destruct (net "/") as [response|e] eqn:Hnet; cbv beta iota zeta;
    [|apply no_document; unfold fetched; now rewrite Hnet].
  destruct (text response) as [html|e] eqn:Hbody; cbv beta iota zeta;
    [|apply no_document; unfold fetched; now rewrite Hnet, Hbody].
  assert (Hdoc : fetched parseFromString net = Some (parseFromString html))
    by (unfold fetched; now rewrite Hnet, Hbody).
  set (doc := parseFromString html) in *.
  js_lookup doc "temperature"; [|eapply no_temperature; eauto].
  js_lookup (document σ) "temperature"; [|eapply no_temperature; eauto].
  js_lookup doc "distance"; [|eapply no_distance; eauto].
  js_lookup (document σ) "distance"; [|eapply no_distance; eauto].
  js_lookup doc "alertMessage"; [|eapply no_alert; eauto].
  case_decide; js_lookup (document σ) "alertBox";
    try (eapply no_alert; eauto; fail).
  - eapply alert_shown; eauto.
  - eapply alert_hidden; eauto.
Qed.

(** Case analysis on the path of a cycle. *)
Ltac js_paths net σ :=
  unfold cycleFails, cycleSucceeds, fetchData, catch_, console_error;
  destruct (chain_path net σ); cbn.

Ltac js_regions :=
  unfold hasReadings, hasRegions, regions, alertVisible,
    temperatureRegion, distanceRegion, alertRegion in *;
  cbn [document] in *;
  rewrite ?console_withText, ?console_withDisplay;
  repeat first
    [ rewrite lookup_withText_eq
    | rewrite lookup_withDisplay_eq
    | rewrite lookup_withText_ne by discriminate
    | rewrite lookup_withDisplay_ne by discriminate ].

(** The same, with the elements known to be present spelled out. *)
Ltac js_present :=
  unfold hasReadings, hasRegions in *;
  repeat match goal with
         | H : _ /\ _ |- _ => destruct H
         | H : is_Some _ |- _ => destruct H as [? H]
         end;
  js_regions;
  repeat match goal with
         | H : getElementById (document _) _ = _ |- _ => rewrite H
         end;
  cbn.

Ltac js_split := repeat match goal with H : _ \/ _ |- _ => destruct H end.

(** No exception escapes [fetchData]: its promise is always fulfilled. *)
Lemma fetchData_returns net σ :
  fst (fetchData parseFromString net σ) = Normal tt.
Proof. js_paths net σ; reflexivity. Qed.

Lemma cycle_fails_or_succeeds net σ :
  cycleFails parseFromString net σ \/ cycleSucceeds parseFromString net σ.
Proof. js_paths net σ; eauto. Qed.

(** X1.  A cycle succeeds exactly when the request and the reading of
    its body complete, the parsed document has [temperature], [distance]
    and [alertMessage] elements, and the live page has [temperature],
    [distance] and [alertBox] elements; in every other case it fails. *)
Lemma cycle_succeeds_iff net σ :
  cycleSucceeds parseFromString net σ <->
  exists doc, fetched parseFromString net = Some doc
    /\ hasReadings doc
    /\ is_Some (getElementById doc "alertMessage")
    /\ hasRegions σ.
Proof.
  js_paths net σ;
    (split; [intros E | intros (doc' & Hf & Hr & Ha & Hl)]);
    try discriminate; try reflexivity;
    try (eexists; unfold hasReadings, hasRegions; eauto 10; fail);
    exfalso; simplify_eq; js_split; js_present; congruence.
Qed.

(** A failed cycle writes one line to the console; a successful one
    writes none. *)
Lemma failed_cycle_logged net σ :
  cycleFails parseFromString net σ ->
  exists error,
    console (snd (fetchData parseFromString net σ))
    = console σ ++ [(lit "Error fetching data:", error)].
Proof. js_paths net σ; intros [e He]; try discriminate; eauto. Qed.

Lemma successful_cycle_silent net σ :
  cycleSucceeds parseFromString net σ ->
  console (snd (fetchData parseFromString net σ)) = console σ.
Proof. js_paths net σ; intros He; try discriminate; reflexivity. Qed.

(** A cycle removes no region, whatever its outcome. *)
Lemma fetchData_keeps_regions net σ :
  hasRegions σ -> hasRegions (snd (fetchData parseFromString net σ)).
Proof.
  intros H. js_paths net σ; js_present; repeat split; eauto.
Qed.

Lemma cycles_keep_regions nets σ :
  hasRegions σ -> hasRegions (cycles parseFromString nets σ).
Proof.
  revert σ. induction nets as [|net nets IH]; intros σ H; simpl; [exact H|].
  apply IH, fetchData_keeps_regions, H.
Qed.

(** C1 (amended).  When a refresh cycle fails, no exception escapes
    [fetchData] and the alert region keeps exactly its value from before
    the cycle.  The temperature region can differ only if the parsed
    document has a [temperature] element, and the distance region only if
    it has both a [temperature] and a [distance] element: a network error,
    an unreadable body or a document without [temperature] leaves all
    three regions as they were. *)
Theorem failed_cycle_display net σ :
  cycleFails parseFromString net σ ->
  let σ' := snd (fetchData parseFromString net σ) in
  fst (fetchData parseFromString net σ) = Normal tt
  /\ alertRegion σ' = alertRegion σ
  /\ (temperatureRegion σ' <> temperatureRegion σ ->
      exists doc, fetched parseFromString net = Some doc
                  /\ is_Some (getElementById doc "temperature"))
  /\ (distanceRegion σ' <> distanceRegion σ ->
      exists doc, fetched parseFromString net = Some doc
                  /\ hasReadings doc).
Proof.
  js_paths net σ; intros [e He]; try discriminate;
    js_regions; repeat split; try congruence; eauto.
Qed.

(** C2 (amended).  For every fetched document that has [temperature] and
    [distance] elements and whose [alertMessage] text is not empty after
    trimming, on a live page that has its [temperature], [distance] and
    [alertBox] elements, after the refresh cycle the text of the alert
    element is that message as it was read, surrounding white space
    included, and the alert element is visible ([display: block]). *)
Theorem alert_activation net σ doc a :
  fetched parseFromString net = Some doc ->
  hasReadings doc ->
  getElementById doc "alertMessage" = Some a ->
  trim (innerText a) <> lit "" ->
  hasRegions σ ->
  let σ' := snd (fetchData parseFromString net σ) in
  innerText <$> alertRegion σ' = Some (innerText a)
  /\ style_display <$> alertRegion σ' = Some (Some "block")
  /\ alertVisible σ' = true.
Proof.
  intros Hf Hr Ha Ht Hl.
  js_paths net σ; simplify_eq; js_split; js_present; try congruence; auto.
Qed.

(** C3 (amended).  For every fetched document that has [temperature] and
    [distance] elements and whose [alertMessage] text is empty or white
    space only, on a live page that has its [temperature], [distance] and
    [alertBox] elements, after the refresh cycle the alert element is
    hidden ([display: none]) whatever its visibility was before, and its
    text is the text it had before the cycle. *)
Theorem empty_alert_hides net σ doc a :
  fetched parseFromString net = Some doc ->
  hasReadings doc ->
  getElementById doc "alertMessage" = Some a ->
  blank (innerText a) ->
  hasRegions σ ->
  let σ' := snd (fetchData parseFromString net σ) in
  alertVisible σ' = false
  /\ style_display <$> alertRegion σ' = Some (Some "none")
  /\ innerText <$> alertRegion σ' = innerText <$> alertRegion σ.
Proof.
  intros Hf Hr Ha Ht Hl. apply trim_nil_blank in Ht.
  js_paths net σ; simplify_eq; js_split; js_present; try congruence; auto.
Qed.

(** C4.  After every successful refresh cycle the text of the temperature
    region and the text of the distance region are exactly the texts of
    the [temperature] and [distance] elements of the parsed document. *)
Theorem field_passthrough net σ :
  cycleSucceeds parseFromString net σ ->
  let σ' := snd (fetchData parseFromString net σ) in
  exists doc t d,
    fetched parseFromString net = Some doc
    /\ getElementById doc "temperature" = Some t
    /\ getElementById doc "distance" = Some d
    /\ innerText <$> temperatureRegion σ' = Some (innerText t)
    /\ innerText <$> distanceRegion σ' = Some (innerText d).
Proof.
  js_paths net σ; intros Hs; try discriminate;
    exists doc, t, d; js_present; auto.
Qed.

(** C5.  Given a response body in which the [temperature] element reads
    72, the [distance] element reads 15 and the [alertMessage] element
    reads "Object too close!", after one refresh cycle the page shows
    temperature 72, distance 15, and a visible alert with that text. *)
Theorem concrete_scenario net σ doc t d a :
  fetched parseFromString net = Some doc ->
  getElementById doc "temperature" = Some t -> innerText t = lit "72" ->
  getElementById doc "distance" = Some d -> innerText d = lit "15" ->
  getElementById doc "alertMessage" = Some a ->
  innerText a = lit "Object too close!" ->
  hasRegions σ ->
  let σ' := snd (fetchData parseFromString net σ) in
  innerText <$> temperatureRegion σ' = Some (lit "72")
  /\ innerText <$> distanceRegion σ' = Some (lit "15")
  /\ alertVisible σ' = true
  /\ innerText <$> alertRegion σ' = Some (lit "Object too close!").
Proof.
  intros Hf Ht Et Hd Ed Ha Ea Hl.
  js_paths net σ; simplify_eq; js_split; js_present; try congruence.
  - rewrite Et, Ed, Ea. auto.
  - exfalso.
    match goal with
    | H : trim _ = _ |- _ => rewrite Ea in H; vm_compute in H
    end.
    discriminate.
Qed.

(** C6 (amended).  The refresh cycle does not look at the status code of
    a response: a response with a non-success status is processed exactly
    as a success response with the same body.  It fails, and is logged,
    exactly when that response would, and it leaves the same page. *)
Theorem status_not_inspected (s1 s2 : N) (body : Promise Html) σ :
  let answer s : Network Html := fun _ => Fulfilled (mkResponse s body) in
  fetchData parseFromString (answer s1) σ
  = fetchData parseFromString (answer s2) σ
  /\ (cycleFails parseFromString (answer s1) σ
      <-> cycleFails parseFromString (answer s2) σ).
Proof. split; reflexivity. Qed.


(** C10.  The display after a refresh cycle is determined by the fetched
    response body and the display before the cycle: two cycles that read
    the same body and start from pages with the same three regions end
    with the same three regions, whatever else differs (status code,
    console, other elements of the page). *)
Theorem refresh_deterministic net1 net2 r1 r2 html σ1 σ2 :
  net1 "/" = Fulfilled r1 -> net2 "/" = Fulfilled r2 ->
  text r1 = Fulfilled html -> text r2 = Fulfilled html ->
  regions σ1 = regions σ2 ->
  regions (snd (fetchData parseFromString net1 σ1))
  = regions (snd (fetchData parseFromString net2 σ2)).
Proof.
  intros N1 N2 T1 T2 HR.
  assert (F1 : fetched parseFromString net1 = Some (parseFromString html))
    by (unfold fetched; now rewrite N1, T1).
  assert (F2 : fetched parseFromString net2 = Some (parseFromString html))
    by (unfold fetched; now rewrite N2, T2).
  unfold regions, temperatureRegion, distanceRegion, alertRegion in HR.
  injection HR as Rt Rd Ra.
  unfold fetchData, catch_, console_error.
  destruct (chain_path net1 σ1), (chain_path net2 σ2); cbn;
    simplify_eq; js_split; js_regions;
    repeat match goal with H : is_Some _ |- _ => destruct H as [? H] end;
    try congruence.
Qed.

(** ** Further properties of a cycle *)

(** What a complete document does to a complete page. *)
Lemma complete_cycle net σ doc t d a :
  fetched parseFromString net = Some doc ->
  getElementById doc "temperature" = Some t ->
  getElementById doc "distance" = Some d ->
  getElementById doc "alertMessage" = Some a ->
  hasRegions σ ->
  let σ' := snd (fetchData parseFromString net σ) in
  cycleSucceeds parseFromString net σ
  /\ innerText <$> temperatureRegion σ' = Some (innerText t)
  /\ innerText <$> distanceRegion σ' = Some (innerText d)
  /\ (alertVisible σ' = true <-> ~ blank (innerText a))
  /\ (~ blank (innerText a) ->
      innerText <$> alertRegion σ' = Some (innerText a)).
Proof.
  intros Hf Ht Hd Ha Hl. cbv zeta. rewrite <- trim_nil_blank.
  js_paths net σ; simplify_eq; js_split; js_present; try congruence;
    repeat split; auto; try congruence; try discriminate.
Qed.

(** Reading any element of the page after a write. *)
Lemma lookup_withText id id' v σ :
  getElementById (document (withText id v σ)) id'
  = (if decide (id = id') then setText v else fun e => e)
      <$> getElementById (document σ) id'.
Proof.
  case_decide as E.
  - subst. apply lookup_withText_eq.
  - rewrite lookup_withText_ne by exact E.
    now destruct (getElementById (document σ) id').
Qed.

Lemma lookup_withDisplay id id' v σ :
  getElementById (document (withDisplay id v σ)) id'
  = (if decide (id = id') then setDisplay v else fun e => e)
      <$> getElementById (document σ) id'.
Proof.
  case_decide as E.
  - subst. apply lookup_withDisplay_eq.
  - rewrite lookup_withDisplay_ne by exact E.
    now destruct (getElementById (document σ) id').
Qed.

(** One cycle leaves every element but the three it writes as it was. *)
Lemma fetchData_frame net σ id :
  id <> "temperature" -> id <> "distance" -> id <> "alertBox" ->
  getElementById (document (snd (fetchData parseFromString net σ))) id
  = getElementById (document σ) id.
Proof.
  intros Ht Hd Ha.
  js_paths net σ; cbn [document];
    rewrite ?lookup_withDisplay_ne, ?lookup_withText_ne by congruence;
    reflexivity.
Qed.

(** Through any number of cycles, the entry of the live document under
    an id other than [temperature], [distance] and [alertBox] stays as it
    was. *)
Lemma cycles_frame nets σ id :
  id <> "temperature" -> id <> "distance" -> id <> "alertBox" ->
  getElementById (document (cycles parseFromString nets σ)) id
  = getElementById (document σ) id.
Proof.
  intros Ht Hd Ha. revert σ.
  induction nets as [|net nets IH]; intros σ; simpl; [reflexivity|].
  rewrite IH. now apply fetchData_frame.
Qed.

(** One cycle changes neither the tag nor the class of an element, and
    the inline [display] of no element but [alertBox]. *)
Lemma fetchData_keeps_shape net σ id :
  let σ' := snd (fetchData parseFromString net σ) in
  tagName <$> getElementById (document σ') id
  = tagName <$> getElementById (document σ) id
  /\ className <$> getElementById (document σ') id
     = className <$> getElementById (document σ) id
  /\ (id <> "alertBox" ->
      style_display <$> getElementById (document σ') id
      = style_display <$> getElementById (document σ) id).
Proof.
  cbv zeta.
  js_paths net σ; cbn [document];
    rewrite ?lookup_withDisplay, ?lookup_withText;
    destruct (getElementById (document σ) id);
    repeat case_decide; subst;
    repeat split; try reflexivity; try congruence.
Qed.

(** Through any number of cycles the live document keeps the same set of
    ids, each entry keeps its tag and its class, and no entry but
    [alertBox] has its inline [display] changed. *)
Lemma cycles_keep_shape nets σ id :
  let σ' := cycles parseFromString nets σ in
  tagName <$> getElementById (document σ') id
  = tagName <$> getElementById (document σ) id
  /\ className <$> getElementById (document σ') id
     = className <$> getElementById (document σ) id
  /\ (id <> "alertBox" ->
      style_display <$> getElementById (document σ') id
      = style_display <$> getElementById (document σ) id)
  /\ dom (document σ') = dom (document σ).
Proof.
  cbv zeta.
  assert (H : forall id, tagName <$> getElementById
                (document (cycles parseFromString nets σ)) id
              = tagName <$> getElementById (document σ) id
            /\ className <$> getElementById
                 (document (cycles parseFromString nets σ)) id
               = className <$> getElementById (document σ) id
            /\ (id <> "alertBox" ->
                style_display <$> getElementById
                  (document (cycles parseFromString nets σ)) id
                = style_display <$> getElementById (document σ) id)).
  { clear id. intros id. revert σ.
    induction nets as [|net nets IH]; intros σ; simpl; [auto|].
    destruct (IH (snd (fetchData parseFromString net σ))) as (T & C & S).
    destruct (fetchData_keeps_shape net σ id) as (T' & C' & S').
    rewrite T, C. repeat split; auto.
    intros Hne. rewrite S, S' by exact Hne. reflexivity. }
  destruct (H id) as (T & C & S). repeat split; auto.
  apply set_eq. intros k. rewrite !elem_of_dom.
  destruct (H k) as (T' & _ & _). unfold getElementById in T'.
  destruct (document (cycles parseFromString nets σ) !! k),
    (document σ !! k); simpl in T'; try discriminate;
    split; intros [? ?]; eauto; discriminate.
Qed.

Ltac js_facts :=
  unfold hasReadings, hasRegions, regions, alertVisible,
    temperatureRegion, distanceRegion, alertRegion in *;
  cbn [document] in *;
  repeat match goal with
         | H : context [withText _ _ _] |- _ =>
             first [ rewrite lookup_withText_eq in H
                   | rewrite lookup_withText_ne in H by discriminate ]
         | H : context [withDisplay _ _ _] |- _ =>
             first [ rewrite lookup_withDisplay_eq in H
                   | rewrite lookup_withDisplay_ne in H by discriminate ]
         end;
  repeat match goal with
         | H : is_Some _ |- _ => destruct H as [? H]
         end;
  repeat match goal with
         | E : getElementById ?m ?k = _, H : context [getElementById ?m ?k]
           |- _ =>
             lazymatch H with
             | E => fail
             | _ => rewrite E in H; cbn [fmap option_fmap option_map] in H
             end
         end.

Lemma document_ext σ1 σ2 :
  (forall id, getElementById (document σ1) id = getElementById (document σ2) id) ->
  document σ1 = document σ2.
Proof. intros H. apply map_eq. exact H. Qed.

(** X4.  Running a cycle again on the same answer changes nothing in the
    document: polling a server whose answer does not change leaves the
    page as the first cycle left it, whether that cycle succeeded or
    failed. *)
Theorem cycle_idempotent net σ :
  let σ' := snd (fetchData parseFromString net σ) in
  document (snd (fetchData parseFromString net σ')) = document σ'.
Proof.
  cbv zeta. unfold fetchData, catch_, console_error.
  destruct (chain_path net σ); cbn [fst snd];
    match goal with
    | |- context [chain parseFromString net ?s] =>
        destruct (chain_path net s)
    end; cbn [fst snd document];
    simplify_eq; js_split; js_facts; try congruence; try reflexivity;
    apply document_ext; intros k;
    repeat first [ rewrite lookup_withText | rewrite lookup_withDisplay
                 | progress cbn [document] ];
    destruct (getElementById (document σ) k);
    repeat case_decide; simplify_eq; reflexivity.
Qed.

(** One cycle adds at most one line to the console, after the lines
    already there. *)
Lemma fetchData_console net σ :
  exists lines,
    console (snd (fetchData parseFromString net σ)) = console σ ++ lines
    /\ length lines <= 1
    /\ Forall (fun line => fst line = lit "Error fetching data:") lines.
Proof.
  js_paths net σ; rewrite ?console_withText, ?console_withDisplay;
    first [ exists []; rewrite app_nil_r; repeat split; auto; fail
          | eexists [_]; repeat split; [simpl; lia | repeat constructor] ].
Qed.

(** X5.  The console only grows: the lines already there are kept, a
    page view adds at most one line per cycle, and every line added
    carries the message "Error fetching data:". *)
Theorem cycles_console nets σ :
  exists lines,
    console (cycles parseFromString nets σ) = console σ ++ lines
    /\ length lines <= length nets
    /\ Forall (fun line => fst line = lit "Error fetching data:") lines.
Proof.
  revert σ. induction nets as [|net nets IH]; intros σ; simpl.
  - exists []. rewrite app_nil_r. repeat split; auto.
  - destruct (fetchData_console net σ) as (l1 & E1 & L1 & F1).
    destruct (IH (snd (fetchData parseFromString net σ))) as (l2 & E2 & L2 & F2).
    exists (l1 ++ l2). rewrite E2, E1, <- app_assoc. repeat split.
    + rewrite length_app. lia.
    + apply Forall_app; auto.
Qed.

(** X6.  When the request is rejected, or the reading of the body is,
    the cycle leaves the document untouched and logs exactly the reason of
    the rejection (line 74). *)
Theorem request_failure_logged net σ reason :
  net "/" = Rejected reason
  \/ (exists response,
        net "/" = Fulfilled response /\ text response = Rejected reason) ->
  fetchData parseFromString net σ
  = (Normal tt,
     {| document := document σ;
        console := console σ ++ [(lit "Error fetching data:", reason)] |}).
Proof.
  intros [H | (response & H & Hb)];
    unfold fetchData, catch_, chain, then_, fetch, response_text, bind,
      settle, console_error; rewrite H; cbn; [reflexivity|].
  rewrite Hb. reflexivity.
Qed.

(** The text of a written region after one cycle is the text it had, or
    the text of the element that feeds it. *)
Lemma fetchData_provenance net σ src dst v :
  (src, dst) ∈ feeds ->
  innerText <$> getElementById
    (document (snd (fetchData parseFromString net σ))) dst = Some v ->
  innerText <$> getElementById (document σ) dst = Some v
  \/ exists doc e,
       fetched parseFromString net = Some doc
       /\ getElementById doc src = Some e /\ innerText e = v.
Proof.
  unfold feeds. rewrite !elem_of_cons, elem_of_nil.
  intros [E | [E | [E | []]]]; injection E as -> ->;
    js_paths net σ; cbn [document];
    rewrite ?lookup_withDisplay, ?lookup_withText;
    repeat (case_decide; try discriminate);
    destruct (getElementById (document σ) _);
    cbn; intros Hv; simplify_eq; eauto 10.
Qed.

(** X9.  The page shows no text that was not served.  After any number
    of cycles the text of each written element is the text it had at the
    start, or the text of the element that feeds it ([temperature] for
    [temperature], [distance] for [distance], [alertMessage] for
    [alertBox]) in a document fetched by one of the cycles. *)
Theorem display_provenance nets σ src dst v :
  (src, dst) ∈ feeds ->
  innerText <$> getElementById
    (document (cycles parseFromString nets σ)) dst = Some v ->
  innerText <$> getElementById (document σ) dst = Some v
  \/ exists net doc e,
       net ∈ nets
       /\ fetched parseFromString net = Some doc
       /\ getElementById doc src = Some e /\ innerText e = v.
Proof.
  intros Hf. revert σ.
  induction nets as [|net nets IH]; intros σ; simpl; [auto|].
  intros Hv. destruct (IH _ Hv) as [H | (n & doc & e & Hn & H)].
  - destruct (fetchData_provenance net σ src dst v Hf H)
      as [H' | (doc & e & H')]; [auto|].
    right. exists net, doc, e. split; [apply list_elem_of_here | exact H'].
  - right. exists n, doc, e. split; [now apply list_elem_of_further | exact H].
Qed.

(** The banner is visible after a cycle only if it was before, or the
    document of that cycle carries a message that is not blank. *)
Lemma fetchData_alert_origin net σ :
  alertVisible (snd (fetchData parseFromString net σ)) = true ->
  alertVisible σ = true
  \/ exists doc a,
       fetched parseFromString net = Some doc
       /\ getElementById doc "alertMessage" = Some a
       /\ ~ blank (innerText a).
Proof.
  js_paths net σ; js_regions; auto.
  - intros _. right. exists doc, a. rewrite <- trim_nil_blank. auto.
  - js_present. discriminate.
Qed.

(** X11.  No false alarm: if the banner is hidden at the start and
    visible after some cycles, one of those cycles fetched a document
    whose [alertMessage] element holds a message that is not blank. *)
Theorem no_false_alarm nets σ :
  alertVisible σ = false ->
  alertVisible (cycles parseFromString nets σ) = true ->
  exists net doc a,
    net ∈ nets
    /\ fetched parseFromString net = Some doc
    /\ getElementById doc "alertMessage" = Some a
    /\ ~ blank (innerText a).
Proof.
  revert σ. induction nets as [|net nets IH]; intros σ H0 H1; simpl in H1.
  - congruence.
  - destruct (alertVisible (snd (fetchData parseFromString net σ))) eqn:E.
    + destruct (fetchData_alert_origin net σ E) as [H | (doc & a & H)];
        [congruence|].
      exists net, doc, a. split; [apply list_elem_of_here | exact H].
    + destruct (IH _ E H1) as (n & doc & a & Hn & H).
      exists n, doc, a. split; [now apply list_elem_of_further | exact H].
Qed.

End Properties.

(** ** The page as served *)

(** C9.  In every document rendered from the template, the
    [alertMessage] element carries the inline style [display: none] and
    holds the alert text; the banner is another element, [alertBox], of
    class [alert-box], empty and without inline style, for which the style
    sheet declares [display: none].  So on the loaded page, before any
    refresh cycle, the alert is not visible, and the text a reader sees
    does not contain the alert text. *)
Theorem initial_page_hides_alert (s : SensorSnapshot) :
  let σ := load (render s) in
  getElementById (index (render s)) "alertMessage"
  = Some {| tagName := "div"; className := None;
            style_display := Some "none"; innerText := alertMessage s |}
  /\ alertRegion σ
     = Some {| tagName := "div"; className := Some "alert-box";
               style_display := None; innerText := [] |}
  /\ declaredDisplay stylesheet "div" (Some "alert-box") = Some "none"
  /\ alertVisible σ = false
  /\ renderedText stylesheet (render s)
     = lit "ESP32 Sensor Data"
       ++ lit "Temperature:" ++ lit " " ++ temperature s
       ++ lit " " ++ [176%N] ++ lit "F"
       ++ lit "Distance:" ++ lit " " ++ distance s ++ lit " cm".
Proof.
  destruct s as [t d a]. cbv zeta.
  repeat split; vm_compute; fold (@app N);
    rewrite ?app_nil_r, <- ?app_assoc; reflexivity.
Qed.

(** Every served page has the three regions the script writes, and the
    readings it displays are the ones substituted. *)
Lemma served_page_regions (s : SensorSnapshot) : hasRegions (load (render s)).
Proof. destruct s as [t d a]. repeat split; vm_compute; eauto. Qed.

Lemma served_page_readings (s : SensorSnapshot) :
  innerText <$> temperatureRegion (load (render s)) = Some (temperature s)
  /\ innerText <$> distanceRegion (load (render s)) = Some (distance s).
Proof.
  destruct s as [t d a].
  split; vm_compute; fold (@app N); rewrite ?app_nil_r; reflexivity.
Qed.

(** The page keeps its regions through any number of cycles. *)
Lemma page_view_keeps_regions (s : SensorSnapshot) (nets : list (Network Node)) :
  hasRegions (cycles index nets (load (render s))).
Proof. apply cycles_keep_regions, served_page_regions. Qed.

(** ** Concrete cycles *)

(** C1, as stated, fails: the answer has a [temperature] element only, so
    the cycle fails at [distance], after the temperature on screen has
    gone from 70 to 80. *)
Lemma failed_cycle_overwrites_temperature :
  let net := respond 200 only_temperature in
  let σ' := snd (fetchData index net page0) in
  cycleFails index net page0
  /\ innerText <$> temperatureRegion page0 = Some (lit "70")
  /\ innerText <$> temperatureRegion σ' = Some (lit "80")
  /\ regions σ' <> regions page0.
Proof.
  cbv zeta. split; [eexists; vm_compute; reflexivity|].
  repeat split; vm_compute; discriminate.
Qed.

Lemma failed_cycle_display_witness :
  cycleFails index (respond 200 only_temperature) page0
  /\ alertRegion (snd (fetchData index (respond 200 only_temperature) page0))
     = alertRegion page0.
Proof.
  assert (H : cycleFails index (respond 200 only_temperature) page0)
    by (eexists; vm_compute; reflexivity).
  split; [exact H|].
  exact (proj1 (proj2 (failed_cycle_display index _ _ H))).
Defined.

(** C2, as stated, fails: the alert text is the message with the white
    space around it (here no-break spaces, which [trim] strips), not the
    trimmed message. *)
Lemma alert_text_not_trimmed :
  let net := respond 200 (render padded) in
  let σ' := snd (fetchData index net page0) in
  innerText <$> getElementById (index (render padded)) "alertMessage"
  = Some (alertMessage padded)
  /\ trim (alertMessage padded) = lit "Object too close!"
  /\ cycleSucceeds index net page0
  /\ innerText <$> alertRegion σ'
     = Some ([160%N] ++ lit "Object too close!" ++ [160%N])
  /\ innerText <$> alertRegion σ' <> Some (trim (alertMessage padded)).
Proof.
  cbv zeta. repeat split; vm_compute; (reflexivity || discriminate).
Qed.

Lemma alert_activation_witness :
  let σ' := snd (fetchData index (respond 200 (render padded)) page0) in
  innerText <$> alertRegion σ' = Some (alertMessage padded)
  /\ style_display <$> alertRegion σ' = Some (Some "block")
  /\ alertVisible σ' = true.
Proof.
  refine (alert_activation index (respond 200 (render padded)) page0
            (index (render padded))
            (mkElement "div" None (Some "none") (alertMessage padded))
            _ _ _ _ _).
  - reflexivity.
  - split; vm_compute; eauto.
  - vm_compute; reflexivity.
  - vm_compute; discriminate.
  - repeat split; vm_compute; eauto.
Defined.

Lemma empty_alert_hides_witness :
  alertVisible alerting = true
  /\ alertVisible (snd (fetchData index (respond 200 (render calm)) alerting))
     = false.
Proof.
  split; [vm_compute; reflexivity|].
  refine (proj1 (empty_alert_hides index (respond 200 (render calm)) alerting
                   (index (render calm))
                   (mkElement "div" None (Some "none") (lit "  "))
                   _ _ _ _ _)).
  - reflexivity.
  - split; vm_compute; eauto.
  - vm_compute; reflexivity.
  - repeat constructor.
  - repeat split; vm_compute; eauto.
Defined.

Lemma field_passthrough_witness :
  exists doc t d,
    fetched index (respond 200 (render close_call)) = Some doc
    /\ getElementById doc "temperature" = Some t
    /\ getElementById doc "distance" = Some d
    /\ innerText <$> temperatureRegion
         (snd (fetchData index (respond 200 (render close_call)) page0))
       = Some (innerText t)
    /\ innerText <$> distanceRegion
         (snd (fetchData index (respond 200 (render close_call)) page0))
       = Some (innerText d).
Proof.
  apply (field_passthrough index (respond 200 (render close_call)) page0).
  vm_compute; reflexivity.
Defined.

Lemma concrete_scenario_witness :
  let σ' := snd (fetchData index (respond 200 (render close_call)) page0) in
  innerText <$> temperatureRegion σ' = Some (lit "72")
  /\ innerText <$> distanceRegion σ' = Some (lit "15")
  /\ alertVisible σ' = true
  /\ innerText <$> alertRegion σ' = Some (lit "Object too close!").
Proof.
  refine (concrete_scenario index (respond 200 (render close_call)) page0
            (index (render close_call))
            (mkElement "span" None None (lit "72"))
            (mkElement "span" None None (lit "15"))
            (mkElement "div" None (Some "none") (lit "Object too close!"))
            _ _ _ _ _ _ _ _);
    try reflexivity; try (vm_compute; reflexivity).
  repeat split; vm_compute; eauto.
Defined.

(** C6, as stated, fails: an answer with status 500 whose body has the
    three elements is not handled as a failure; nothing is logged and the
    display is updated from its body. *)
Lemma error_status_updates_display :
  let net := respond 500 (render close_call) in
  let σ' := snd (fetchData index net page0) in
  cycleSucceeds index net page0
  /\ console σ' = []
  /\ innerText <$> temperatureRegion page0 = Some (lit "70")
  /\ innerText <$> temperatureRegion σ' = Some (lit "72")
  /\ regions σ' <> regions page0.
Proof.
  cbv zeta. repeat split; vm_compute; (reflexivity || discriminate).
Qed.


Lemma refresh_deterministic_witness :
  regions page0 = regions page0_logged
  /\ regions (snd (fetchData index (respond 200 (render close_call)) page0))
     = regions (snd (fetchData index (respond 404 (render close_call))
                       page0_logged)).
Proof.
  split; [vm_compute; reflexivity|].
  apply (refresh_deterministic index _ _
           (mkResponse 200 (Fulfilled (render close_call)))
           (mkResponse 404 (Fulfilled (render close_call)))
           (render close_call)); vm_compute; reflexivity.
Defined.

(** With no answer at all the whole display stays as it is. *)
Example offline_keeps_display :
  regions (snd (fetchData index offline alerting)) = regions alerting
  /\ console (snd (fetchData index offline alerting))
     = [(lit "Error fetching data:", TypeError "Failed to fetch")].
Proof. split; reflexivity. Qed.

(** ** The page and its own script *)

(** The three elements the script reads, in the document the server
    sends. *)
Lemma served_document (s : SensorSnapshot) :
  getElementById (index (render s)) "temperature"
  = Some (mkElement "span" None None (temperature s))
  /\ getElementById (index (render s)) "distance"
     = Some (mkElement "span" None None (distance s))
  /\ getElementById (index (render s)) "alertMessage"
     = Some (mkElement "div" None (Some "none") (alertMessage s)).
Proof.
  destruct s as [t d a].
  repeat split; vm_compute; fold (@app N); rewrite ?app_nil_r; reflexivity.
Qed.

(** X7.  The page works with the document it is itself rendered from: at
    any point of a page view (after any cycles, failed or not), a cycle
    that fetches the page rendered for a snapshot succeeds whatever the
    status code, shows the temperature and the distance of
    that snapshot, and shows the alert exactly when the alert message of
    the snapshot is not blank, then with that message as its text. *)
Theorem refresh_shows_served (s0 s1 : SensorSnapshot)
    (nets : list (Network Node)) (status : N) :
  let net := respond status (render s1) in
  let σ := cycles index nets (load (render s0)) in
  let σ' := snd (fetchData index net σ) in
  cycleSucceeds index net σ
  /\ innerText <$> temperatureRegion σ' = Some (temperature s1)
  /\ innerText <$> distanceRegion σ' = Some (distance s1)
  /\ (alertVisible σ' = true <-> ~ blank (alertMessage s1))
  /\ (~ blank (alertMessage s1) ->
      innerText <$> alertRegion σ' = Some (alertMessage s1)).
Proof.
  destruct (served_document s1) as (Ht & Hd & Ha).
  exact (complete_cycle index (respond status (render s1)) _ _ _ _ _
           eq_refl Ht Hd Ha (page_view_keeps_regions s0 nets)).
Qed.

(** X8.  In every document rendered from the template exactly four
    elements carry an id, each id once: the three elements the script
    writes and the [alertMessage] element it reads.  So every
    [getElementById] of the script finds one element, and no other. *)
Theorem template_ids (s : SensorSnapshot) :
  ids (render s) = ["alertBox"; "temperature"; "distance"; "alertMessage"]
  /\ NoDup (ids (render s)).
Proof.
  assert (H : ids (render s)
              = ["alertBox"; "temperature"; "distance"; "alertMessage"])
    by (destruct s; vm_compute; reflexivity).
  split; [exact H|]. rewrite H.
  repeat (constructor; [rewrite ?elem_of_cons, elem_of_nil; intuition discriminate|]).
  constructor.
Qed.

(** A rule without a [display] declaration adds nothing to the
    cascade. *)
Lemma cascade_skip (P : Rule -> Prop) `{forall r, Decision (P r)}
    (r : Rule) (l : list Rule) :
  displayOf r = None ->
  omap displayOf (filter P (r :: l)) = omap displayOf (filter P l).
Proof.
  intros E. rewrite filter_cons. case_decide; [|reflexivity].
  cbn. now rewrite E.
Qed.

(** X10.  The style sheet declares [display] for the elements of class
    [alert-box] and for no others, whatever their tag: it hides the
    banner and nothing else. *)
Theorem sheet_hides_alert_box_only (tag : string) (class : option string) :
  declaredDisplay stylesheet tag class
  = if decide (class = Some "alert-box") then Some "none" else None.
Proof.
  unfold declaredDisplay, stylesheet. cbv zeta.
  rewrite !(cascade_skip _ (TagSel "body", _)) by reflexivity.
  rewrite !(cascade_skip _ (TagSel "h1", _)) by reflexivity.
  rewrite !(cascade_skip _ (ClassSel "data-container", _)) by reflexivity.
  rewrite !(cascade_skip _ (ClassSel "label", _)) by reflexivity.
  rewrite !filter_cons, !filter_nil.
  unfold selects, isClassRule; cbn [fst snd].
  destruct class as [c|].
  - destruct (String.eqb_spec "alert-box" c) as [<- | Hne]; cbn;
      repeat (destruct (decide _); try congruence); reflexivity.
  - reflexivity.
Qed.

(** The ids of a rendered page, whatever the snapshot. *)
Lemma rendered_ids (s : SensorSnapshot) :
  (omap elementOf (descendants (render s))).*1
  = ["alertBox"; "temperature"; "distance"; "alertMessage"].
Proof. destruct s. vm_compute. reflexivity. Qed.

(** The tag, class and inline [display] of the three regions of a page
    as it is served. *)
Lemma served_page_shape (s : SensorSnapshot) :
  let σ := load (render s) in
  (tagName <$> temperatureRegion σ = Some "span"
   /\ className <$> temperatureRegion σ = Some None
   /\ style_display <$> temperatureRegion σ = Some None)
  /\ (tagName <$> distanceRegion σ = Some "span"
      /\ className <$> distanceRegion σ = Some None
      /\ style_display <$> distanceRegion σ = Some None)
  /\ (tagName <$> alertRegion σ = Some "div"
      /\ className <$> alertRegion σ = Some (Some "alert-box")).
Proof. destruct s. repeat split; vm_compute; reflexivity. Qed.

(** X2.  The hidden [alertMessage] element of the live page is never
    refreshed: after any number of cycles on a served page it is still
    the element the page was loaded with, holding the alert message of
    the snapshot the page was rendered for, whatever the cycles
    fetched. *)
Theorem live_alert_message_stale (s0 : SensorSnapshot)
    (nets : list (Network Node)) :
  getElementById (document (cycles index nets (load (render s0))))
    "alertMessage"
  = Some (mkElement "div" None (Some "none") (alertMessage s0)).
Proof.
  rewrite cycles_frame by discriminate.
  exact (proj2 (proj2 (served_document s0))).
Qed.

(** An element known by its tag, its class and its inline [display]. *)
Lemma element_shape (x : option Element) t c d :
  tagName <$> x = Some t -> className <$> x = Some c ->
  style_display <$> x = Some d ->
  (fun e => (tagName e, className e, style_display e)) <$> x
  = Some (t, c, d).
Proof. destruct x as [[]|]; cbn; congruence. Qed.

Lemma element_tag_class (x : option Element) t c :
  tagName <$> x = Some t -> className <$> x = Some c ->
  (fun e => (tagName e, className e)) <$> x = Some (t, c).
Proof. destruct x as [[]|]; cbn; congruence. Qed.

(** X3.  Through any number of cycles on a served page, the ids of the
    live document stay the four of the template; [temperature] and
    [distance] stay [span] elements without class and without inline
    [display], and [alertBox] stays a [div] of class [alert-box]: the
    script changes the text of the three regions and the inline
    [display] of the banner, and nothing else of them. *)
Theorem page_view_keeps_shape (s0 : SensorSnapshot)
    (nets : list (Network Node)) :
  let σ' := cycles index nets (load (render s0)) in
  dom (document σ')
  = list_to_set ["alertBox"; "temperature"; "distance"; "alertMessage"]
  /\ (fun e => (tagName e, className e, style_display e))
       <$> temperatureRegion σ' = Some ("span", None, None)
  /\ (fun e => (tagName e, className e, style_display e))
       <$> distanceRegion σ' = Some ("span", None, None)
  /\ (fun e => (tagName e, className e))
       <$> alertRegion σ' = Some ("div", Some "alert-box").
Proof.
  cbv zeta.
  destruct (served_page_shape s0)
    as ((Tt & Tc & Ts) & (Dt & Dc & Ds) & (At & Ac)).
  destruct (cycles_keep_shape index nets (load (render s0)) "temperature")
    as (Tt' & Tc' & Ts' & Hdom).
  destruct (cycles_keep_shape index nets (load (render s0)) "distance")
    as (Dt' & Dc' & Ds' & _).
  destruct (cycles_keep_shape index nets (load (render s0)) "alertBox")
    as (At' & Ac' & _ & _).
  cbv zeta in *.
  specialize (Ts' ltac:(discriminate)). specialize (Ds' ltac:(discriminate)).
  unfold temperatureRegion, distanceRegion, alertRegion in *.
  split; [|split; [|split]].
  - rewrite Hdom. unfold load; cbn [document]. unfold index.
    rewrite dom_list_to_map_L, rendered_ids. reflexivity.
  - apply element_shape; [rewrite Tt' | rewrite Tc' | rewrite Ts']; assumption.
  - apply element_shape; [rewrite Dt' | rewrite Dc' | rewrite Ds']; assumption.
  - apply element_tag_class; [rewrite At' | rewrite Ac']; assumption.
Qed.

(** ** Concrete runs *)

(** C3, as stated, fails: the document has a blank [alertMessage] but no
    [temperature] element, so the cycle fails at line 61, before the
    alert is reached, and the banner that was visible stays visible. *)
Lemma blank_alert_without_readings :
  let net := respond 200 only_blank_alert in
  let σ' := snd (fetchData index net alerting) in
  innerText <$> getElementById (index only_blank_alert) "alertMessage"
  = Some (lit "  ")
  /\ blank (lit "  ")
  /\ alertVisible alerting = true
  /\ cycleFails index net alerting
  /\ alertVisible σ' = true.
Proof.
  cbv zeta. split; [vm_compute; reflexivity|].
  split; [repeat constructor|].
  split; [vm_compute; reflexivity|].
  split; [eexists; vm_compute; reflexivity | vm_compute; reflexivity].
Qed.

(** In the same way a message that is not blank is not shown when the
    document lacks the readings. *)
Example alert_without_readings :
  let net := respond 200 only_alert in
  let σ' := snd (fetchData index net page0) in
  trim (lit "Object too close!") <> lit ""
  /\ cycleFails index net page0
  /\ alertVisible σ' = false
  /\ alertRegion σ' = alertRegion page0.
Proof.
  cbv zeta. split; [vm_compute; discriminate|].
  split; [eexists; vm_compute; reflexivity|].
  split; vm_compute; reflexivity.
Qed.


Lemma request_failure_logged_witness :
  fetchData index offline alerting
  = (Normal tt,
     {| document := document alerting;
        console := console alerting
                   ++ [(lit "Error fetching data:",
                        TypeError "Failed to fetch")] |}).
Proof.
  apply (request_failure_logged index offline alerting
           (TypeError "Failed to fetch")).
  left. reflexivity.
Defined.

Lemma display_provenance_witness :
  innerText <$> getElementById (document page0) "alertBox"
  = Some (lit "Object too close!")
  \/ exists net doc e,
       net ∈ [offline; respond 200 (render close_call)]
       /\ fetched index net = Some doc
       /\ getElementById doc "alertMessage" = Some e
       /\ innerText e = lit "Object too close!".
Proof.
  apply (display_provenance index [offline; respond 200 (render close_call)]
           page0 "alertMessage" "alertBox" (lit "Object too close!")).
  - do 2 apply list_elem_of_further. apply list_elem_of_here.
  - vm_compute. reflexivity.
Defined.

Lemma no_false_alarm_witness :
  exists net doc a,
    net ∈ [offline; respond 200 (render close_call)]
    /\ fetched index net = Some doc
    /\ getElementById doc "alertMessage" = Some a
    /\ ~ blank (innerText a).
Proof.
  apply (no_false_alarm index [offline; respond 200 (render close_call)]
           page0); vm_compute; reflexivity.
Defined.
